(** * EC2 start/stop scheduler: the Lambda handler of [lambda_function.py]

    A shallow embedding of the two functions of the module,
    [get_list_of_servers_with_tag] and [lambda_handler], together with the
    part of the Python run time and of the EC2 client they touch.

    The handler talks to the outside world through three client methods
    ([describe_instances], [start_instances], [stop_instances]) and through
    [print].  Both are modelled by explicit state passing: the state holds the
    provider's own (opaque) state, the list of client calls issued so far and
    the lines printed so far.  Exceptions are threaded through a small
    state-and-error monad. *)

From Stdlib Require Import ZArith String Ascii List Lia Bool.
From Stdlib Require Import Floats.SpecFloat.
From stdpp Require Import base option gmap strings list.

Import ListNotations.
Local Open Scope string_scope.
Local Open Scope list_scope.

(** ** Python values

    The event handed to the handler is the decoded JSON payload: a [dict]
    from [str] keys to JSON values. *)

#[local] Set Warnings "-register-all".

Inductive pyval : Type :=
  | PNone
  | PBool (b : bool)
  | PInt (z : Z)
  | PFloat (f : spec_float)
  | PStr (s : string)
  | PList (l : list pyval)
  | PDict (d : gmap string pyval).

(** [type(v).__name__] *)
Definition py_type_name (v : pyval) : string :=
  match v with
  | PNone => "NoneType"
  | PBool _ => "bool"
  | PInt _ => "int"
  | PFloat _ => "float"
  | PStr _ => "str"
  | PList _ => "list"
  | PDict _ => "dict"
  end.

(** [v == s] for a [str] literal [s]: no JSON value that is not a [str]
    compares equal to a [str]. *)
Definition py_eq_str (v : pyval) (s : string) : bool :=
  match v with
  | PStr t => String.eqb t s
  | _ => false
  end.

(** ** [str] and [repr]

    A character of a [string] stands for the code point of its number, so
    the strings of the model are the [str] values over the code points below
    256.  [repr] of a [str] picks the quote as CPython does (a double quote
    only when the text holds a single quote and no double quote), escapes the
    quote and the backslash, and writes the characters that are not printable
    as escapes: below 256 these are the control characters 0-31 and 127-159,
    the no-break space 160 and the soft hyphen 173. *)

Definition squote : ascii := "039"%char.
Definition dquote : ascii := "034"%char.
Definition backslash : ascii := "092"%char.

Fixpoint str_has (c : ascii) (s : string) : bool :=
  match s with
  | EmptyString => false
  | String d s' => Ascii.eqb c d || str_has c s'
  end.

Definition hex_digit (n : N) : ascii :=
  ascii_of_N (if (n <? 10)%N then 48 + n else 87 + n)%N.

Definition repr_char (quote c : ascii) : string :=
  let n := N_of_ascii c in
  if Ascii.eqb c quote || Ascii.eqb c backslash then String backslash (String c EmptyString)
  else if (n =? 9)%N then String backslash "t"
  else if (n =? 10)%N then String backslash "n"
  else if (n =? 13)%N then String backslash "r"
  else if (n <? 32)%N || ((127 <=? n)%N && (n <=? 160)%N) || (n =? 173)%N then
    String backslash (String "x" (String (hex_digit (n / 16)) (String (hex_digit (n mod 16)) EmptyString)))
  else String c EmptyString.

Fixpoint repr_body (quote : ascii) (s : string) : string :=
  match s with
  | EmptyString => EmptyString
  | String c s' => repr_char quote c +:+ repr_body quote s'
  end.

Definition py_repr_str (s : string) : string :=
  let quote := if str_has squote s && negb (str_has dquote s) then dquote else squote in
  String quote (repr_body quote s +:+ String quote EmptyString).

(** [", ".join(l)] *)
Fixpoint join_comma (l : list string) : string :=
  match l with
  | [] => EmptyString
  | [x] => x
  | x :: l' => x +:+ ", " +:+ join_comma l'
  end.

(** [str(l)] for a list [l] of [str] *)
Definition py_str_list (l : list string) : string :=
  "[" +:+ join_comma (map py_repr_str l) +:+ "]".

(** ** Exceptions

    What the handler can see of a raised exception: the name of its class,
    the text [str(error)] gives, and whether it is an instance of
    [Exception], which is what an [except Exception] clause tests.
    [KeyboardInterrupt], [SystemExit] and [GeneratorExit] derive from
    [BaseException] only. *)

Record PyException : Type := mkBaseException {
  exc_type : string;
  exc_str : string;
  exc_is_Exception : bool
}.

(** An exception of a class that derives from [Exception]: the interpreter's
    [KeyError] and [TypeError], botocore's errors. *)
Definition mkException (type str : string) : PyException :=
  mkBaseException type str true.

Inductive result (A : Type) : Type :=
  | Return (a : A)
  | Raise (e : PyException).

Arguments Return {A} a.
Arguments Raise {A} e.

(** ** The EC2 client *)

Record Filter : Type := mkFilter {
  Name : string;
  Values : list string
}.

Record Instance : Type := mkInstance {
  InstanceId : string
}.

Record Reservation : Type := mkReservation {
  Instances : list Instance
}.

Record DescribeInstancesResponse : Type := mkResponse {
  Reservations : list Reservation
}.

(** The value bound to [server_ids] in the handler: the list built by the
    resolver, or the [str] it returns for an operation it does not know. *)
Inductive server_ids_t : Type :=
  | IdList (ids : list string)
  | IdStr (s : string).

(** [len(server_ids)]: the number of items of a list, of characters of a
    [str]. *)
Definition py_len (v : server_ids_t) : nat :=
  match v with
  | IdList ids => List.length ids
  | IdStr s => String.length s
  end.

(** [str(server_ids)] *)
Definition py_str (v : server_ids_t) : string :=
  match v with
  | IdList ids => py_str_list ids
  | IdStr s => s
  end.

(** A call of a client method, with its keyword argument. *)
Inductive call : Type :=
  | DescribeInstances (Filters : list Filter)
  | StartInstances (InstanceIds : server_ids_t)
  | StopInstances (InstanceIds : server_ids_t).

(** The provider: each method answers from the provider's state [W], which
    it may change, and either returns or raises.  The responses of
    [start_instances] and [stop_instances] are dropped by the handler. *)
Record ec2_client (W : Type) : Type := mkClient {
  describe_instances : list Filter -> W -> result DescribeInstancesResponse * W;
  start_instances : server_ids_t -> W -> result unit * W;
  stop_instances : server_ids_t -> W -> result unit * W
}.

Arguments describe_instances {W} _ _ _.
Arguments start_instances {W} _ _ _.
Arguments stop_instances {W} _ _ _.

(** ** State and monad *)

Record state (W : Type) : Type := mkState {
  world : W;
  calls : list call;
  stdout : list string
}.

Arguments mkState {W} _ _ _.
Arguments world {W} _.
Arguments calls {W} _.
Arguments stdout {W} _.

Definition M (W A : Type) : Type := state W -> result A * state W.

Definition ret {W A : Type} (a : A) : M W A := fun st => (Return a, st).

Definition raise {W A : Type} (e : PyException) : M W A := fun st => (Raise e, st).

Definition bind {W A B : Type} (m : M W A) (k : A -> M W B) : M W B :=
  fun st =>
    match m st with
    | (Return a, st') => k a st'
    | (Raise e, st') => (Raise e, st')
    end.

Notation "x <- m ;; k" := (bind m (fun x => k))
  (at level 100, m at next level, right associativity).
Notation "m ;; k" := (bind m (fun _ => k))
  (at level 100, right associativity).

(** [try: body / except Exception as error: handler error].  An exception
    that is not an instance of [Exception] passes through the clause. *)
Definition try_except {W A : Type} (body : M W A) (handler : PyException -> M W A) : M W A :=
  fun st =>
    match body st with
    | (Return a, st') => (Return a, st')
    | (Raise e, st') =>
      if exc_is_Exception e then handler e st' else (Raise e, st')
    end.

(** [print(line)] *)
Definition print {W : Type} (line : string) : M W unit :=
  fun st => (Return tt, mkState (world st) (calls st) (stdout st ++ [line])).

(** A client call is recorded when it is made, whatever its outcome. *)
Definition client_call {W A : Type} (c : call) (method : W -> result A * W) : M W A :=
  fun st =>
    let (r, w) := method (world st) in
    (r, mkState w (calls st ++ [c]) (stdout st)).

(** ** Operations of the interpreter used by the handler *)

(** [key in event] *)
Definition py_contains (event : gmap string pyval) (key : string) : bool :=
  match event !! key with
  | Some _ => true
  | None => false
  end.

(** [event[key]] *)
Definition py_getitem {W : Type} (event : gmap string pyval) (key : string) : M W pyval :=
  match event !! key with
  | Some v => ret v
  | None => raise (mkException "KeyError" (py_repr_str key))
  end.

(** [s + v] for a [str] [s] *)
Definition py_add_str {W : Type} (s : string) (v : pyval) : M W string :=
  match v with
  | PStr t => ret (s +:+ t)
  | _ =>
    raise (mkException "TypeError"
      ("can only concatenate str (not " +:+ String dquote (py_type_name v)
       +:+ String dquote ") to str"))
  end.

(** ** The module

    [EC2TAG_KEY] and [EC2TAG_VALUE] are read from the environment and [ec2]
    is created when the module is loaded; the three are fixed from then on. *)

Section LambdaFunction.

Context {W : Type}.
Variable ec2 : ec2_client W.
Variable EC2TAG_KEY : string.
Variable EC2TAG_VALUE : string.

Definition ec2_describe_instances (Filters : list Filter) : M W DescribeInstancesResponse :=
  client_call (DescribeInstances Filters) (describe_instances ec2 Filters).

Definition ec2_start_instances (InstanceIds : server_ids_t) : M W unit :=
  client_call (StartInstances InstanceIds) (start_instances ec2 InstanceIds).

Definition ec2_stop_instances (InstanceIds : server_ids_t) : M W unit :=
  client_call (StopInstances InstanceIds) (stop_instances ec2 InstanceIds).

(** The two nested [for] loops: every [InstanceId] is appended to
    [server_ids] as it is met. *)
Definition append_instances (server_ids : list string) (server : Reservation) : list string :=
  fold_left (fun acc ec2count => acc ++ [InstanceId ec2count]) (Instances server) server_ids.

Definition append_reservations (server_ids : list string) (reservations : list Reservation)
  : list string :=
  fold_left append_instances reservations server_ids.

Definition get_list_of_servers_with_tag (EC2TAG_KEY EC2TAG_VALUE : string) (EC2_ACTION : pyval)
  : M W server_ids_t :=
  let server_ids := [] in
  let state_values :=
    if py_eq_str EC2_ACTION "stop" then Some ["running"]
    else if py_eq_str EC2_ACTION "start" then Some ["stopped"]
    else None in
  match state_values with
  | None => ret (IdStr "Invalid Operation")
  | Some instance_state_values =>
    response <- ec2_describe_instances
      [ mkFilter ("tag:" +:+ EC2TAG_KEY) [EC2TAG_VALUE];
        mkFilter "instance-state-name" instance_state_values ];;
    let server_ids :=
      if (0 <? List.length (Reservations response))%nat
      then append_reservations server_ids (Reservations response)
      else server_ids in
    ret (IdList server_ids)
  end.

(** The body of the [try] block of [lambda_handler]. *)
Definition lambda_handler_body (event : gmap string pyval) : M W unit :=
  if py_contains event "operation" then
    op <- py_getitem event "operation";;
    server_ids <- get_list_of_servers_with_tag EC2TAG_KEY EC2TAG_VALUE op;;
    if (0 <? py_len server_ids)%nat then
      op <- py_getitem event "operation";;
      if py_eq_str op "start" then
        op <- py_getitem event "operation";;
        line <- py_add_str "Servers to " op;;
        (print (line +:+ ": " +:+ py_str server_ids);;
         ec2_start_instances server_ids)
      else
        op <- py_getitem event "operation";;
        if py_eq_str op "stop" then
          op <- py_getitem event "operation";;
          line <- py_add_str "Servers to " op;;
          (print (line +:+ ": " +:+ py_str server_ids);;
           ec2_stop_instances server_ids)
        else
          print "Invalid Operation!"
    else
      op <- py_getitem event "operation";;
      line <- py_add_str "No Servers to " op;;
      print line
  else
    print "No operation detected!".

Definition lambda_handler {Ctx : Type} (event : gmap string pyval) (context : Ctx)
  : M W string :=
  try_except (lambda_handler_body event)
    (fun error => print ("Error occuried! Error Message: " +:+ exc_str error));;
  ret "Function Executed!".

End LambdaFunction.

Arguments get_list_of_servers_with_tag {W} ec2 EC2TAG_KEY EC2TAG_VALUE EC2_ACTION.
Arguments lambda_handler_body {W} ec2 EC2TAG_KEY EC2TAG_VALUE event.
Arguments lambda_handler {W} ec2 EC2TAG_KEY EC2TAG_VALUE {Ctx} event context.

(** ** Loading the module

    The three assignments at the top of the file run once, when the module
    is loaded, outside any [try]: the two lookups in [os.environ], in this
    order, then [boto3.client('ec2')].  The environment maps names to [str]
    values; creating the client is the library's business and may fail. *)

Record module_globals (W : Type) : Type := mkGlobals {
  EC2TAG_KEY : string;
  EC2TAG_VALUE : string;
  ec2 : ec2_client W
}.

Arguments mkGlobals {W} _ _ _.
Arguments EC2TAG_KEY {W} _.
Arguments EC2TAG_VALUE {W} _.
Arguments ec2 {W} _.

(** [os.environ[key]] *)
Definition os_environ_getitem (environ : gmap string string) (key : string) : result string :=
  match environ !! key with
  | Some v => Return v
  | None => Raise (mkException "KeyError" (py_repr_str key))
  end.

Definition load_module {W : Type} (environ : gmap string string)
  (boto3_client : string -> result (ec2_client W)) : result (module_globals W) :=
  match os_environ_getitem environ "EC2TAG_KEY" with
  | Raise e => Raise e
  | Return key =>
    match os_environ_getitem environ "EC2TAG_VALUE" with
    | Raise e => Raise e
    | Return value =>
      match boto3_client "ec2" with
      | Raise e => Raise e
      | Return client => Return (mkGlobals key value client)
      end
    end
  end.

(** ** A provider to run the handler against

    A small simulated provider over a table of tagged instances and their
    states.  [describe_instances] lists, one reservation per instance, the
    instances whose state is among the values of the state filter;
    [start_instances] and [stop_instances] set the state of the instances
    they are given. *)

Module Sim.

Definition table : Type := list (string * string).

Definition wanted_states (Filters : list Filter) : list string :=
  flat_map (fun f => if String.eqb (Name f) "instance-state-name" then Values f else [])
    Filters.

Definition in_strings (x : string) (l : list string) : bool :=
  existsb (String.eqb x) l.

Definition describe (Filters : list Filter) (t : table)
  : result DescribeInstancesResponse * table :=
  (Return (mkResponse
     (map (fun row => mkReservation [mkInstance row.1])
        (filter (fun row => in_strings row.2 (wanted_states Filters)) t))), t).

Definition set_state (new : string) (ids : server_ids_t) (t : table)
  : result unit * table :=
  match ids with
  | IdList l =>
    (Return tt, map (fun row => if in_strings row.1 l then (row.1, new) else row) t)
  | IdStr _ =>
    (Raise (mkException "ParamValidationError" "Invalid type for parameter InstanceIds"), t)
  end.

Definition client : ec2_client table :=
  mkClient table describe (set_state "pending") (set_state "stopping").

(** A provider every call of which fails. *)
Definition denied : PyException :=
  mkException "ClientError" "An error occurred (UnauthorizedOperation)".

Definition failing : ec2_client table :=
  mkClient table (fun _ t => (Raise denied, t)) (fun _ t => (Raise denied, t))
    (fun _ t => (Raise denied, t)).

(** A signal arrives during the call: [KeyboardInterrupt] is not an
    [Exception]. *)
Definition interrupt : PyException :=
  mkBaseException "KeyboardInterrupt" EmptyString false.

Definition interrupted : ec2_client table :=
  mkClient table (fun _ t => (Raise interrupt, t)) (fun _ t => (Raise interrupt, t))
    (fun _ t => (Raise interrupt, t)).

(** Lists, then is interrupted during the bulk call. *)
Definition half_interrupted : ec2_client table :=
  mkClient table describe (fun _ t => (Raise interrupt, t)) (fun _ t => (Raise interrupt, t)).

(** Lists two reservations, then fails to stop or start. *)
Definition half : ec2_client table :=
  mkClient table describe (fun _ t => (Raise denied, t)) (fun _ t => (Raise denied, t)).

(** Answers every query with the same response, whatever the table. *)
Definition canned (response : DescribeInstancesResponse) : ec2_client table :=
  mkClient table (fun _ t => (Return response, t)) (set_state "pending")
    (set_state "stopping").

(** Three reservations, the second empty, with one id listed twice. *)
Definition repeated : DescribeInstancesResponse :=
  mkResponse
    [ mkReservation [mkInstance "i-2"; mkInstance "i-1"];
      mkReservation [];
      mkReservation [mkInstance "i-3"; mkInstance "i-2"] ].

(** Two reservations that list no instance. *)
Definition hollow : DescribeInstancesResponse :=
  mkResponse [mkReservation []; mkReservation []].

(** [boto3.client] as it behaves with a working configuration. *)
Definition boto3_client (service : string) : result (ec2_client table) :=
  if String.eqb service "ec2" then Return client
  else Raise (mkException "UnknownServiceError" ("Unknown service: " +:+ py_repr_str service)).

Definition fleet : table :=
  [("i-1", "running"); ("i-9", "stopped"); ("i-2", "running")].

Definition boot : state table := mkState fleet [] [].

End Sim.

(** ** Vocabulary of the statements *)

(** The instance ids of a response: reservations in the order of the
    response, instances in the order of their reservation. *)
Definition response_ids (response : DescribeInstancesResponse) : list string :=
  flat_map (fun server => map InstanceId (Instances server)) (Reservations response).

(** The two filters the resolver sends for a given state name. *)
Definition tag_filters (key value state_name : string) : list Filter :=
  [ mkFilter ("tag:" +:+ key) [value]; mkFilter "instance-state-name" [state_name] ].

Definition is_query (c : call) : bool :=
  match c with
  | DescribeInstances _ => true
  | _ => false
  end.

Definition is_start (c : call) : bool :=
  match c with
  | StartInstances _ => true
  | _ => false
  end.

Definition is_stop (c : call) : bool :=
  match c with
  | StopInstances _ => true
  | _ => false
  end.

Definition is_action (c : call) : bool := is_start c || is_stop c.

(** How many calls of a list satisfy a test. *)
Definition count (p : call -> bool) (l : list call) : nat := List.length (filter p l).

(** The line printed by the [except] clause. *)
Definition error_line (error : PyException) : string :=
  "Error occuried! Error Message: " +:+ exc_str error.

(** The two operations the handler knows, to state both cases at once. *)
Inductive operation : Type := Start | Stop.

Definition op_name (o : operation) : string :=
  match o with Start => "start" | Stop => "stop" end.

Definition op_state (o : operation) : string :=
  match o with Start => "stopped" | Stop => "running" end.

Definition op_call (o : operation) : server_ids_t -> call :=
  match o with Start => StartInstances | Stop => StopInstances end.

Definition op_method {W : Type} (o : operation) (ec2 : ec2_client W)
  : server_ids_t -> W -> result unit * W :=
  match o with Start => start_instances ec2 | Stop => stop_instances ec2 end.

(** What the [try] statement makes of an exception of its block: the
    lines it prints and what the handler then yields. *)
Definition reported (e : PyException) : list string :=
  if exc_is_Exception e then [error_line e] else [].

Definition yielded (e : PyException) : result string :=
  if exc_is_Exception e then Return "Function Executed!" else Raise e.

(** The state a run for operation [o] ends in, read off the provider's
    answers. *)
Definition final_state {W : Type} (ec2 : ec2_client W) (key value : string) (o : operation)
  (st : state W) : state W :=
  let filters := tag_filters key value (op_state o) in
  let queried := calls st ++ [DescribeInstances filters] in
  match describe_instances ec2 filters (world st) with
  | (Raise e, w) => mkState w queried (stdout st ++ reported e)
  | (Return response, w) =>
    match response_ids response with
    | [] => mkState w queried (stdout st ++ ["No Servers to " +:+ op_name o])
    | ids =>
      let announce := "Servers to " +:+ op_name o +:+ ": " +:+ py_str_list ids in
      match op_method o ec2 (IdList ids) w with
      | (Return _, w') =>
        mkState w' (queried ++ [op_call o (IdList ids)]) (stdout st ++ [announce])
      | (Raise e, w') =>
        mkState w' (queried ++ [op_call o (IdList ids)])
          (stdout st ++ [announce] ++ reported e)
      end
    end
  end.

(** What a run for operation [o] yields. *)
Definition final_result {W : Type} (ec2 : ec2_client W) (key value : string) (o : operation)
  (st : state W) : result string :=
  let filters := tag_filters key value (op_state o) in
  match describe_instances ec2 filters (world st) with
  | (Raise e, _) => yielded e
  | (Return response, w) =>
    match response_ids response with
    | [] => Return "Function Executed!"
    | ids =>
      match op_method o ec2 (IdList ids) w with
      | (Return _, _) => Return "Function Executed!"
      | (Raise e, _) => yielded e
      end
    end
  end.

(** ** The resolver *)

Section Resolver.

Context {W : Type}.
Variable ec2 : ec2_client W.
Variables key value : string.

Lemma append_instances_app (acc : list string) (server : Reservation) :
  append_instances acc server = acc ++ map InstanceId (Instances server).
Proof.
  unfold append_instances.
  generalize dependent acc.
  induction (Instances server) as [|i l IH]; intros acc; simpl.
  - by rewrite app_nil_r.
  - rewrite IH. by rewrite <- app_assoc.
Qed.

Lemma append_reservations_app (acc : list string) (reservations : list Reservation) :
  append_reservations acc reservations
  = acc ++ flat_map (fun server => map InstanceId (Instances server)) reservations.
Proof.
  unfold append_reservations.
  generalize dependent acc.
  induction reservations as [|r rs IH]; intros acc; simpl.
  - by rewrite app_nil_r.
  - rewrite IH, append_instances_app. by rewrite <- app_assoc.
Qed.

Lemma guarded_loops (response : DescribeInstancesResponse) :
  (if (0 <? List.length (Reservations response))%nat
   then append_reservations [] (Reservations response)
   else []) = response_ids response.
Proof.
  unfold response_ids.
  destruct (Reservations response) as [|r rs]; [reflexivity|].
  change (0 <? List.length (r :: rs))%nat with true; cbv iota.
  apply append_reservations_app.
Qed.

Lemma py_eq_str_true (v : pyval) (s : string) : py_eq_str v s = true <-> v = PStr s.
Proof.
  destruct v as [| | | |t| |]; simpl; try (split; intros; discriminate).
  rewrite String.eqb_eq. split; intros H; [by subst | by inversion H].
Qed.

Lemma py_eq_str_false (v : pyval) (s : string) : py_eq_str v s = false <-> v <> PStr s.
Proof.
  rewrite <- py_eq_str_true. destruct (py_eq_str v s); split; congruence.
Qed.

Lemma resolver_known (o : operation) (st : state W) :
  get_list_of_servers_with_tag ec2 key value (PStr (op_name o)) st
  = let filters := tag_filters key value (op_state o) in
    let queried := mkState (describe_instances ec2 filters (world st)).2
                     (calls st ++ [DescribeInstances filters]) (stdout st) in
    match (describe_instances ec2 filters (world st)).1 with
    | Return response => (Return (IdList (response_ids response)), queried)
    | Raise e => (Raise e, queried)
    end.
Proof.
  unfold get_list_of_servers_with_tag, ec2_describe_instances, client_call, bind, ret,
    tag_filters.
  destruct o; simpl;
    match goal with |- context [describe_instances ec2 ?f ?w] =>
      destruct (describe_instances ec2 f w) as [[response|e] w'] end; simpl;
    try reflexivity; by rewrite guarded_loops.
Qed.

Lemma resolver_unknown (v : pyval) (st : state W) :
  v <> PStr "start" -> v <> PStr "stop" ->
  get_list_of_servers_with_tag ec2 key value v st = (Return (IdStr "Invalid Operation"), st).
Proof.
  intros Hstart Hstop. unfold get_list_of_servers_with_tag.
  apply py_eq_str_false in Hstart, Hstop. by rewrite Hstart, Hstop.
Qed.

End Resolver.

(** ** Runs of the handler, case by case *)

Section Runs.

Context {W Ctx : Type}.
Variable ec2 : ec2_client W.
Variables key value : string.
Variable event : gmap string pyval.
Variable context : Ctx.
Variable st : state W.

Lemma run_missing :
  event !! "operation" = None ->
  lambda_handler ec2 key value event context st
  = (Return "Function Executed!",
     mkState (world st) (calls st) (stdout st ++ ["No operation detected!"])).
Proof.
  intros Hev.
  unfold lambda_handler, lambda_handler_body, try_except, bind, py_contains.
  by rewrite Hev.
Qed.

Lemma run_unknown (v : pyval) :
  event !! "operation" = Some v ->
  v <> PStr "start" -> v <> PStr "stop" ->
  lambda_handler ec2 key value event context st
  = (Return "Function Executed!",
     mkState (world st) (calls st) (stdout st ++ ["Invalid Operation!"])).
Proof.
  intros Hev Hstart Hstop.
  unfold lambda_handler, lambda_handler_body, try_except, bind, py_contains, py_getitem.
  rewrite Hev; cbn [ret].
  rewrite (resolver_unknown ec2 key value v st Hstart Hstop).
  apply py_eq_str_false in Hstart, Hstop.
  cbn [py_len]. rewrite Hstart, Hstop. reflexivity.
Qed.

Lemma run_known (o : operation) :
  event !! "operation" = Some (PStr (op_name o)) ->
  lambda_handler ec2 key value event context st
  = (final_result ec2 key value o st, final_state ec2 key value o st).
Proof.
  intros Hev.
  unfold lambda_handler, lambda_handler_body, try_except, bind, py_contains, py_getitem,
    final_state, final_result, reported, yielded.
  rewrite Hev; cbn [ret].
  rewrite (resolver_known ec2 key value o st); cbv zeta.
  destruct (describe_instances ec2 (tag_filters key value (op_state o)) (world st))
    as [[response|e] w]; cbn [fst snd];
    [|destruct (exc_is_Exception e); cbn; by rewrite ?app_nil_r].
  destruct (response_ids response) as [|i ids]; cbn [py_len List.length Nat.ltb Nat.leb].
  - destruct o; reflexivity.
  - destruct o; cbn;
      unfold ec2_start_instances, ec2_stop_instances, client_call; cbn.
    + destruct (start_instances ec2 (IdList (i :: ids)) w) as [[[]|e] w'];
        cbn; [|destruct (exc_is_Exception e); cbn]; by rewrite <- ?app_assoc.
    + destruct (stop_instances ec2 (IdList (i :: ids)) w) as [[[]|e] w'];
        cbn; [|destruct (exc_is_Exception e); cbn]; by rewrite <- ?app_assoc.
Qed.

(** Every value of the field is one of the two known names or neither. *)
Lemma operation_cases (v : pyval) :
  (exists o, v = PStr (op_name o)) \/ (v <> PStr "start" /\ v <> PStr "stop").
Proof.
  destruct (py_eq_str v "start") eqn:Hstart.
  { apply py_eq_str_true in Hstart. left. by exists Start. }
  destruct (py_eq_str v "stop") eqn:Hstop.
  { apply py_eq_str_true in Hstop. left. by exists Stop. }
  right. split; by apply py_eq_str_false.
Qed.

End Runs.

(** ** Properties of the handler *)

(** The ids of a response are the ids of the instances of its reservations,
    all of them and nothing else. *)
Lemma response_ids_complete (response : DescribeInstancesResponse) (i : string) :
  In i (response_ids response)
  <-> exists server ec2count,
        In server (Reservations response) /\ In ec2count (Instances server)
        /\ InstanceId ec2count = i.
Proof.
  unfold response_ids. rewrite in_flat_map. split.
  - intros (server & Hs & Hi). apply in_map_iff in Hi as (ec2count & Hid & Hin).
    by exists server, ec2count.
  - intros (server & ec2count & Hs & Hin & Hid). exists server. split; [done|].
    apply in_map_iff. by exists ec2count.
Qed.

(** C1.  When the event's operation is "stop", the handler first queries the
    provider with exactly two filters, the configured tag and
    instance-state-name "running".  The only call that can follow is one bulk
    stop, and it carries exactly the ids of the response to that query (every
    instance id of every reservation, and no other); it is issued whenever the
    query returns at least one id. *)
Theorem stop_queries_running_and_stops_them
  {W Ctx : Type} (ec2 : ec2_client W) (key value : string)
  (event : gmap string pyval) (context : Ctx) (st : state W) :
  event !! "operation" = Some (PStr "stop") ->
  let filters :=
    [ mkFilter ("tag:" +:+ key) [value]; mkFilter "instance-state-name" ["running"] ] in
  calls (lambda_handler ec2 key value event context st).2
  = calls st ++ DescribeInstances filters ::
      match (describe_instances ec2 filters (world st)).1 with
      | Return response =>
        match response_ids response with
        | [] => []
        | ids => [StopInstances (IdList ids)]
        end
      | Raise _ => []
      end
  /\ forall response i,
       In i (response_ids response)
       <-> exists server ec2count,
             In server (Reservations response) /\ In ec2count (Instances server)
             /\ InstanceId ec2count = i.
Proof.
  intros Hev filters. split; [|apply response_ids_complete].
  rewrite (run_known ec2 key value event context st Stop Hev).
  unfold final_state; cbn [snd op_state op_call op_method op_name].
  change (tag_filters key value "running") with filters.
  destruct (describe_instances ec2 filters (world st)) as [[response|e] w]; cbn [fst].
  - destruct (response_ids response) as [|i ids]; [done|].
    destruct (stop_instances ec2 (IdList (i :: ids)) w) as [[[]|e] w'];
      cbn [calls]; by rewrite <- app_assoc.
  - done.
Qed.

Lemma stop_queries_running_and_stops_them_witness :
  ({[ "operation" := PStr "stop" ]} : gmap string pyval) !! "operation" = Some (PStr "stop")
  /\ calls (lambda_handler Sim.client "env" "dev"
           ({[ "operation" := PStr "stop" ]} : gmap string pyval) tt Sim.boot).2
  = [ DescribeInstances
        [ mkFilter "tag:env" ["dev"]; mkFilter "instance-state-name" ["running"] ];
      StopInstances (IdList ["i-1"; "i-2"]) ].
Proof.
  split; [reflexivity|].
  exact (proj1 (stop_queries_running_and_stops_them Sim.client "env" "dev"
                  {[ "operation" := PStr "stop" ]} tt Sim.boot eq_refl)).
Defined.

(** C2.  When the event's operation is "start", the handler first queries the
    provider with the configured tag filter and instance-state-name "stopped".
    The only call that can follow is one bulk start, and it carries exactly
    the ids of the response to that query; it is issued whenever the query
    returns at least one id. *)
Theorem start_queries_stopped_and_starts_them
  {W Ctx : Type} (ec2 : ec2_client W) (key value : string)
  (event : gmap string pyval) (context : Ctx) (st : state W) :
  event !! "operation" = Some (PStr "start") ->
  let filters :=
    [ mkFilter ("tag:" +:+ key) [value]; mkFilter "instance-state-name" ["stopped"] ] in
  calls (lambda_handler ec2 key value event context st).2
  = calls st ++ DescribeInstances filters ::
      match (describe_instances ec2 filters (world st)).1 with
      | Return response =>
        match response_ids response with
        | [] => []
        | ids => [StartInstances (IdList ids)]
        end
      | Raise _ => []
      end.
Proof.
  intros Hev filters.
  rewrite (run_known ec2 key value event context st Start Hev).
  unfold final_state; cbn [snd op_state op_call op_method op_name].
  change (tag_filters key value "stopped") with filters.
  destruct (describe_instances ec2 filters (world st)) as [[response|e] w]; cbn [fst].
  - destruct (response_ids response) as [|i ids]; [done|].
    destruct (start_instances ec2 (IdList (i :: ids)) w) as [[[]|e] w'];
      cbn [calls]; by rewrite <- app_assoc.
  - done.
Qed.

Lemma start_queries_stopped_and_starts_them_witness :
  ({[ "operation" := PStr "start" ]} : gmap string pyval) !! "operation" = Some (PStr "start")
  /\ calls (lambda_handler Sim.client "env" "dev"
           ({[ "operation" := PStr "start" ]} : gmap string pyval) tt Sim.boot).2
  = [ DescribeInstances
        [ mkFilter "tag:env" ["dev"]; mkFilter "instance-state-name" ["stopped"] ];
      StartInstances (IdList ["i-9"]) ].
Proof.
  split; [reflexivity|].
  exact (start_queries_stopped_and_starts_them Sim.client "env" "dev"
           {[ "operation" := PStr "start" ]} tt Sim.boot eq_refl).
Defined.

(** C3, as stated, fails: [except Exception] does not catch an exception
    that is not an instance of [Exception].  A provider interrupted during the
    listing query makes the handler raise [KeyboardInterrupt] to its caller,
    with nothing printed. *)
Lemma handler_propagates_interrupt :
  lambda_handler Sim.interrupted "env" "dev"
    ({[ "operation" := PStr "stop" ]} : gmap string pyval) tt Sim.boot
  = (Raise (mkBaseException "KeyboardInterrupt" EmptyString false),
     mkState Sim.fleet
       [ DescribeInstances
           [ mkFilter "tag:env" ["dev"]; mkFilter "instance-state-name" ["running"] ] ]
       [])
  /\ (lambda_handler Sim.interrupted "env" "dev"
        ({[ "operation" := PStr "stop" ]} : gmap string pyval) tt Sim.boot).1
     <> Return "Function Executed!".
Proof. split; [reflexivity | discriminate]. Qed.

(** C3, amended.  Whatever the provider, the event and the state: when the
    [try] block raises nothing that is not an instance of [Exception], the
    handler returns the string "Function Executed!" and raises nothing.  A
    block that ends normally leaves the state as it is; an instance of
    [Exception] raised in the block is caught, and the run ends in the state
    the block left with one more printed line reporting the error and no
    further client call.  An exception that is not an instance of [Exception]
    is raised to the caller, with the state the block left. *)
Theorem handler_acknowledges_unless_not_Exception
  {W Ctx : Type} (ec2 : ec2_client W) (key value : string)
  (event : gmap string pyval) (context : Ctx) (st : state W) :
  ((forall error, (lambda_handler_body ec2 key value event st).1 = Raise error ->
                  exc_is_Exception error = true) ->
   (lambda_handler ec2 key value event context st).1 = Return "Function Executed!")
  /\ (forall st',
        lambda_handler_body ec2 key value event st = (Return tt, st') ->
        lambda_handler ec2 key value event context st = (Return "Function Executed!", st'))
  /\ (forall error st',
        lambda_handler_body ec2 key value event st = (Raise error, st') ->
        exc_is_Exception error = true ->
        lambda_handler ec2 key value event context st
        = (Return "Function Executed!",
           mkState (world st') (calls st')
             (stdout st' ++ ["Error occuried! Error Message: " +:+ exc_str error])))
  /\ (forall error st',
        lambda_handler_body ec2 key value event st = (Raise error, st') ->
        exc_is_Exception error = false ->
        lambda_handler ec2 key value event context st = (Raise error, st')).
Proof.
  unfold lambda_handler, try_except, bind.
  destruct (lambda_handler_body ec2 key value event st) as [[[]|e] st1]; cbn [fst].
  - split; [reflexivity|]. split; [by intros st' [= <-]|].
    split; intros; discriminate.
  - split; [|split; [|split]].
    + intros Hall. by rewrite (Hall e eq_refl).
    + intros; discriminate.
    + intros error st' [= <- <-] ->. reflexivity.
    + intros error st' [= <- <-] ->. reflexivity.
Qed.

Lemma handler_acknowledges_unless_not_Exception_witness :
  lambda_handler Sim.failing "env" "dev"
    ({[ "operation" := PStr "stop" ]} : gmap string pyval) tt Sim.boot
  = (Return "Function Executed!",
     mkState Sim.fleet
       [ DescribeInstances
           [ mkFilter "tag:env" ["dev"]; mkFilter "instance-state-name" ["running"] ] ]
       [ "Error occuried! Error Message: An error occurred (UnauthorizedOperation)" ]).
Proof.
  destruct (handler_acknowledges_unless_not_Exception Sim.failing "env" "dev"
              {[ "operation" := PStr "stop" ]} tt Sim.boot) as (_ & _ & Hcaught & _).
  exact (Hcaught Sim.denied _ eq_refl eq_refl).
Defined.

(** C4.  When the event has an operation field whose value is neither "start"
    nor "stop", the resolver returns its invalid-operation value without
    touching the provider, and the whole run of the handler issues no client
    call: no listing query, no bulk start, no bulk stop.  The provider's state
    is unchanged. *)
Theorem unknown_operation_issues_no_call
  {W Ctx : Type} (ec2 : ec2_client W) (key value : string)
  (event : gmap string pyval) (context : Ctx) (st : state W) (v : pyval) :
  event !! "operation" = Some v ->
  v <> PStr "start" -> v <> PStr "stop" ->
  get_list_of_servers_with_tag ec2 key value v st = (Return (IdStr "Invalid Operation"), st)
  /\ calls (lambda_handler ec2 key value event context st).2 = calls st
  /\ world (lambda_handler ec2 key value event context st).2 = world st.
Proof.
  intros Hev Hstart Hstop.
  rewrite (run_unknown ec2 key value event context st v Hev Hstart Hstop).
  split; [by apply resolver_unknown | done].
Qed.

Lemma unknown_operation_issues_no_call_witness :
  calls (lambda_handler Sim.client "env" "dev"
           ({[ "operation" := PStr "reboot" ]} : gmap string pyval) tt Sim.boot).2 = []
  /\ calls (lambda_handler Sim.client "env" "dev"
              ({[ "operation" := PInt 1 ]} : gmap string pyval) tt Sim.boot).2 = [].
Proof.
  split.
  - apply (unknown_operation_issues_no_call Sim.client "env" "dev"
             {[ "operation" := PStr "reboot" ]} tt Sim.boot (PStr "reboot"));
      [reflexivity | discriminate | discriminate].
  - apply (unknown_operation_issues_no_call Sim.client "env" "dev"
             {[ "operation" := PInt 1 ]} tt Sim.boot (PInt 1));
      [reflexivity | discriminate | discriminate].
Defined.

(** C5.  When the event has no "operation" key, the handler makes no client
    call at all, leaves the provider's state alone and prints one line, the
    report of the missing field. *)
Theorem missing_operation_issues_no_call
  {W Ctx : Type} (ec2 : ec2_client W) (key value : string)
  (event : gmap string pyval) (context : Ctx) (st : state W) :
  event !! "operation" = None ->
  lambda_handler ec2 key value event context st
  = (Return "Function Executed!",
     mkState (world st) (calls st) (stdout st ++ ["No operation detected!"])).
Proof. apply run_missing. Qed.

Lemma missing_operation_issues_no_call_witness :
  lambda_handler Sim.client "env" "dev"
    ({[ "Operation" := PStr "stop"; "detail" := PDict ∅ ]} : gmap string pyval) tt Sim.boot
  = (Return "Function Executed!", mkState Sim.fleet [] ["No operation detected!"]).
Proof.
  exact (missing_operation_issues_no_call Sim.client "env" "dev"
           {[ "Operation" := PStr "stop"; "detail" := PDict ∅ ]} tt Sim.boot eq_refl).
Defined.

(** C6.  When the resolver returns an empty list of ids, the handler issues
    no bulk start or stop: the only client call of the run is the resolver's
    query, and the outcome is reported by one printed line. *)
Theorem empty_resolution_issues_no_action
  {W Ctx : Type} (ec2 : ec2_client W) (key value : string)
  (event : gmap string pyval) (context : Ctx) (st st1 : state W) (v : pyval) :
  event !! "operation" = Some v ->
  get_list_of_servers_with_tag ec2 key value v st = (Return (IdList []), st1) ->
  exists name filters,
    v = PStr name
    /\ calls st1 = calls st ++ [DescribeInstances filters]
    /\ lambda_handler ec2 key value event context st
       = (Return "Function Executed!",
          mkState (world st1) (calls st1) (stdout st1 ++ ["No Servers to " +:+ name])).
Proof.
  intros Hev Hres.
  destruct (operation_cases v) as [[o ->]|[Hstart Hstop]].
  - exists (op_name o), (tag_filters key value (op_state o)).
    rewrite (run_known ec2 key value event context st o Hev).
    rewrite resolver_known in Hres; cbv zeta in Hres.
    unfold final_state, final_result.
    destruct (describe_instances ec2 (tag_filters key value (op_state o)) (world st))
      as [[response|e] w]; cbn [fst snd] in Hres; [|discriminate].
    injection Hres as Hids <-. by rewrite Hids.
  - rewrite (resolver_unknown ec2 key value v st Hstart Hstop) in Hres. discriminate.
Qed.

Lemma empty_resolution_issues_no_action_witness :
  lambda_handler Sim.client "env" "dev"
    ({[ "operation" := PStr "start" ]} : gmap string pyval) tt
    (mkState [("i-1", "running")] [] [])
  = (Return "Function Executed!",
     mkState [("i-1", "running")]
       [ DescribeInstances
           [ mkFilter "tag:env" ["dev"]; mkFilter "instance-state-name" ["stopped"] ] ]
       [ "No Servers to start" ]).
Proof.
  destruct (empty_resolution_issues_no_action Sim.client "env" "dev"
              {[ "operation" := PStr "start" ]} tt
              (mkState [("i-1", "running")] [] [])
              (mkState [("i-1", "running")]
                 [ DescribeInstances
                     [ mkFilter "tag:env" ["dev"];
                       mkFilter "instance-state-name" ["stopped"] ] ] [])
              (PStr "start"))
    as (name & filters & Hname & _ & Hrun); [reflexivity | reflexivity |].
  injection Hname as <-. exact Hrun.
Defined.

(** The client calls a run can add: none, the query alone, or the query
    followed by one bulk call on the ids of its response. *)
Lemma run_calls_shape
  {W Ctx : Type} (ec2 : ec2_client W) (key value : string)
  (event : gmap string pyval) (context : Ctx) (st : state W) :
  exists new,
    calls (lambda_handler ec2 key value event context st).2 = calls st ++ new
    /\ (new = []
        \/ (exists filters, new = [DescribeInstances filters])
        \/ (exists o response,
              (describe_instances ec2 (tag_filters key value (op_state o)) (world st)).1
              = Return response
              /\ new = [ DescribeInstances (tag_filters key value (op_state o));
                         op_call o (IdList (response_ids response)) ])).
Proof.
  destruct (event !! "operation") as [v|] eqn:Hev.
  - destruct (operation_cases v) as [[o ->]|[Hstart Hstop]].
    + rewrite (run_known ec2 key value event context st o Hev).
      unfold final_state; cbn [snd].
      destruct (describe_instances ec2 (tag_filters key value (op_state o)) (world st))
        as [[response|e] w] eqn:Hquery.
      * destruct (response_ids response) as [|i ids] eqn:Hids.
        { eexists; split; [reflexivity|]. right; left. by eexists. }
        exists [DescribeInstances (tag_filters key value (op_state o));
                op_call o (IdList (i :: ids))].
        split.
        { destruct (op_method o ec2 (IdList (i :: ids)) w) as [[[]|e] w'];
            cbn [calls]; by rewrite <- app_assoc. }
        right; right. exists o, response. by rewrite Hquery, Hids.
      * eexists; split; [reflexivity|]. right; left. by eexists.
    + rewrite (run_unknown ec2 key value event context st v Hev Hstart Hstop).
      exists []. split; [by rewrite app_nil_r | by left].
  - rewrite (run_missing ec2 key value event context st Hev).
    exists []. split; [by rewrite app_nil_r | by left].
Qed.

(** C7.  Among the client calls a run of the handler adds there is at most one
    listing query and at most one bulk call, and never both a start and a
    stop. *)
Theorem at_most_one_query_and_one_action
  {W Ctx : Type} (ec2 : ec2_client W) (key value : string)
  (event : gmap string pyval) (context : Ctx) (st : state W) :
  exists new,
    calls (lambda_handler ec2 key value event context st).2 = calls st ++ new
    /\ count is_query new <= 1
    /\ count is_action new <= 1
    /\ (count is_start new = 0 \/ count is_stop new = 0).
Proof.
  destruct (run_calls_shape ec2 key value event context st) as (new & Hcalls & Hshape).
  exists new. split; [exact Hcalls|].
  destruct Hshape as [->|[(f & ->)|(o & response & _ & ->)]];
    [| |destruct o]; cbn; repeat split; auto.
Qed.

(** C8.  For an operation value other than "start" and "stop" the resolver
    returns the string "Invalid Operation", not a list and not an exception.
    Its length is positive, so the handler's test [len(server_ids) > 0]
    succeeds; all the same the handler issues no client call and prints
    "Invalid Operation!". *)
Theorem sentinel_passes_length_test_without_call
  {W Ctx : Type} (ec2 : ec2_client W) (key value : string)
  (event : gmap string pyval) (context : Ctx) (st : state W) (v : pyval) :
  event !! "operation" = Some v ->
  v <> PStr "start" -> v <> PStr "stop" ->
  exists server_ids,
    get_list_of_servers_with_tag ec2 key value v st = (Return server_ids, st)
    /\ server_ids = IdStr "Invalid Operation"
    /\ (0 <? py_len server_ids)%nat = true
    /\ lambda_handler ec2 key value event context st
       = (Return "Function Executed!",
          mkState (world st) (calls st) (stdout st ++ ["Invalid Operation!"])).
Proof.
  intros Hev Hstart Hstop. exists (IdStr "Invalid Operation").
  split; [by apply resolver_unknown|].
  split; [reflexivity|]. split; [reflexivity|].
  by apply run_unknown with v.
Qed.

Lemma sentinel_passes_length_test_without_call_witness :
  lambda_handler Sim.client "env" "dev"
    ({[ "operation" := PStr "Stop" ]} : gmap string pyval) tt Sim.boot
  = (Return "Function Executed!", mkState Sim.fleet [] ["Invalid Operation!"]).
Proof.
  destruct (sentinel_passes_length_test_without_call Sim.client "env" "dev"
              {[ "operation" := PStr "Stop" ]} tt Sim.boot (PStr "Stop"))
    as (server_ids & _ & _ & _ & Hrun);
    [reflexivity | discriminate | discriminate | exact Hrun].
Defined.

(** Where an instance id lands in [response_ids]: after the ids of the
    reservations before its own and the ids listed before it in its own. *)
Lemma response_ids_position
  (response : DescribeInstancesResponse) (before after : list Reservation)
  (server : Reservation) (first rest : list Instance) (ec2count : Instance) :
  Reservations response = before ++ server :: after ->
  Instances server = first ++ ec2count :: rest ->
  response_ids response
    !! (List.length (response_ids (mkResponse before)) + List.length first)%nat
  = Some (InstanceId ec2count).
Proof.
  intros Hres Hinst. unfold response_ids. rewrite Hres; cbn [Reservations].
  rewrite flat_map_app; cbn [flat_map]. rewrite Hinst, map_app; cbn [map].
  rewrite lookup_app_r by lia.
  rewrite <- app_assoc, lookup_app_r by (rewrite length_map; lia).
  rewrite length_map.
  replace (_ + _ - _ - _)%nat with 0%nat by lia. reflexivity.
Qed.

(** No id is dropped or merged: there are as many ids as listed instances. *)
Lemma response_ids_length (response : DescribeInstancesResponse) :
  List.length (response_ids response)
  = list_sum (map (fun server => List.length (Instances server)) (Reservations response)).
Proof.
  unfold response_ids.
  induction (Reservations response) as [|server l IH]; [reflexivity|].
  cbn [flat_map map list_sum fold_right]. rewrite length_app, length_map.
  unfold list_sum in IH. by rewrite IH.
Qed.

(** C9.  Whatever the provider answers, the list handed to a bulk start or
    stop is the list of the instance ids of the response to the run's query,
    in the order of the response: reservations in their order, and in each
    reservation its instances in their order.  Every listed instance has its
    own position in it, so ids listed twice appear twice and none is left
    out. *)
Theorem bulk_call_keeps_response_order
  {W Ctx : Type} (ec2 : ec2_client W) (key value : string)
  (event : gmap string pyval) (context : Ctx) (st : state W) :
  exists new,
    calls (lambda_handler ec2 key value event context st).2 = calls st ++ new
    /\ forall v,
         In (StartInstances v) new \/ In (StopInstances v) new ->
         exists filters response ids,
           In (DescribeInstances filters) new
           /\ (describe_instances ec2 filters (world st)).1 = Return response
           /\ v = IdList ids
           /\ ids = flat_map (fun server => map InstanceId (Instances server))
                      (Reservations response)
           /\ List.length ids
              = list_sum (map (fun server => List.length (Instances server))
                            (Reservations response))
           /\ forall before server after first ec2count rest,
                Reservations response = before ++ server :: after ->
                Instances server = first ++ ec2count :: rest ->
                ids !! (List.length
                          (flat_map (fun server => map InstanceId (Instances server)) before)
                        + List.length first)%nat
                = Some (InstanceId ec2count).
Proof.
  destruct (run_calls_shape ec2 key value event context st) as (new & Hcalls & Hshape).
  exists new. split; [exact Hcalls|].
  intros v Hin.
  destruct Hshape as [->|[(f & ->)|(o & response & Hquery & ->)]].
  - destruct Hin as [[]|[]].
  - destruct Hin as [[H|[]]|[H|[]]]; discriminate.
  - exists (tag_filters key value (op_state o)), response, (response_ids response).
    split; [by left|]. split; [exact Hquery|].
    split.
    { destruct o, Hin as [[H|[H|[]]]|[H|[H|[]]]]; cbn in H; congruence. }
    split; [reflexivity|].
    split; [apply response_ids_length|].
    intros before server after first ec2count rest Hres Hinst.
    exact (response_ids_position response before after server first rest ec2count
             Hres Hinst).
Qed.

Lemma bulk_call_keeps_response_order_witness :
  calls (lambda_handler (Sim.canned Sim.repeated) "env" "dev"
           ({[ "operation" := PStr "stop" ]} : gmap string pyval) tt Sim.boot).2
  = [ DescribeInstances
        [ mkFilter "tag:env" ["dev"]; mkFilter "instance-state-name" ["running"] ];
      StopInstances (IdList ["i-2"; "i-1"; "i-3"; "i-2"]) ]
  /\ ["i-2"; "i-1"; "i-3"; "i-2"] !! 3%nat = Some "i-2".
Proof.
  split; [reflexivity|].
  destruct (bulk_call_keeps_response_order (Sim.canned Sim.repeated) "env" "dev"
              {[ "operation" := PStr "stop" ]} tt Sim.boot) as (new & Hcalls & Hnew).
  vm_compute in Hcalls. subst new.
  destruct (Hnew (IdList ["i-2"; "i-1"; "i-3"; "i-2"])) as
    (filters & response & ids & Hq & Hresp & Hv & _ & _ & Hpos).
  { right. right. by left. }
  destruct Hq as [Hq|[Hq|[]]]; [|discriminate].
  injection Hq as <-. injection Hresp as <-. injection Hv as <-.
  exact (Hpos [mkReservation [mkInstance "i-2"; mkInstance "i-1"]; mkReservation []]
           (mkReservation [mkInstance "i-3"; mkInstance "i-2"]) []
           [mkInstance "i-3"] (mkInstance "i-2") [] eq_refl eq_refl).
Defined.

(** C10.  For one configuration, one provider and one state, two events that
    agree on the "operation" key (both lack it, or both hold the same value)
    give the same run: the same client calls, the same printed lines, the
    same provider state and the same returned value, whatever their other
    keys and whatever the two context arguments. *)
Theorem handler_depends_only_on_operation
  {W Ctx1 Ctx2 : Type} (ec2 : ec2_client W) (key value : string)
  (event1 event2 : gmap string pyval) (context1 : Ctx1) (context2 : Ctx2)
  (st : state W) :
  event1 !! "operation" = event2 !! "operation" ->
  lambda_handler ec2 key value event1 context1 st
  = lambda_handler ec2 key value event2 context2 st.
Proof.
  intros Hsame.
  unfold lambda_handler, lambda_handler_body, py_contains, py_getitem.
  by rewrite Hsame.
Qed.

Lemma handler_depends_only_on_operation_witness :
  lambda_handler Sim.client "env" "dev"
    ({[ "operation" := PStr "stop"; "source" := PStr "aws.events" ]} : gmap string pyval)
    tt Sim.boot
  = lambda_handler Sim.client "env" "dev"
      ({[ "operation" := PStr "stop"; "time" := PInt 7; "detail" := PList [PNone] ]}
         : gmap string pyval)
      (Some 3%nat) Sim.boot.
Proof.
  apply (handler_depends_only_on_operation Sim.client "env" "dev"
           {[ "operation" := PStr "stop"; "source" := PStr "aws.events" ]}
           {[ "operation" := PStr "stop"; "time" := PInt 7; "detail" := PList [PNone] ]}
           tt (Some 3%nat) Sim.boot).
  reflexivity.
Defined.

(** ** Further properties of the resolver *)

(** X1.  Called for "start" or "stop", the resolver raises exactly when its
    query raises, and it raises the query's exception: it catches nothing and
    raises nothing of its own. *)
Theorem resolver_raises_what_query_raises
  {W : Type} (ec2 : ec2_client W) (key value : string) (o : operation)
  (st : state W) (e : PyException) :
  (get_list_of_servers_with_tag ec2 key value (PStr (op_name o)) st).1 = Raise e
  <-> (describe_instances ec2
         [ mkFilter ("tag:" +:+ key) [value];
           mkFilter "instance-state-name" [op_state o] ] (world st)).1 = Raise e.
Proof.
  rewrite resolver_known; cbv zeta.
  change (tag_filters key value (op_state o))
    with [ mkFilter ("tag:" +:+ key) [value]; mkFilter "instance-state-name" [op_state o] ].
  destruct (describe_instances ec2 _ (world st)) as [[response|e'] w]; cbn [fst snd];
    split; intros H; congruence.
Qed.

(** X2.  Whatever it is called with, the resolver prints nothing and issues
    no bulk call: either it leaves the state as it found it, or it adds one
    listing query and leaves the provider in the state that query left. *)
Theorem resolver_only_queries
  {W : Type} (ec2 : ec2_client W) (key value : string) (v : pyval) (st : state W) :
  let st' := (get_list_of_servers_with_tag ec2 key value v st).2 in
  stdout st' = stdout st
  /\ (st' = st
      \/ exists filters,
           calls st' = calls st ++ [DescribeInstances filters]
           /\ world st' = (describe_instances ec2 filters (world st)).2).
Proof.
  destruct (operation_cases v) as [[o ->]|[Hstart Hstop]]; cbv zeta.
  - rewrite resolver_known; cbv zeta.
    destruct (describe_instances ec2 (tag_filters key value (op_state o)) (world st))
      as [[response|e] w] eqn:Hquery; cbn [fst snd stdout];
      (split; [reflexivity|]); right;
      exists (tag_filters key value (op_state o)); by rewrite Hquery.
  - rewrite (resolver_unknown ec2 key value v st Hstart Hstop). by split; [|left].
Qed.

(** X3.  The kind of value the resolver returns tells a known operation from
    an unknown one: it returns a [str] exactly for the values other than
    "start" and "stop", and that [str] is "Invalid Operation". *)
Theorem resolver_returns_str_iff_unknown
  {W : Type} (ec2 : ec2_client W) (key value : string) (v : pyval) (st : state W) :
  (exists s, (get_list_of_servers_with_tag ec2 key value v st).1 = Return (IdStr s))
  <-> (v <> PStr "start" /\ v <> PStr "stop"
       /\ (get_list_of_servers_with_tag ec2 key value v st).1
          = Return (IdStr "Invalid Operation")).
Proof.
  split.
  - intros [s Hs]. destruct (operation_cases v) as [[o ->]|[Hstart Hstop]].
    + rewrite resolver_known in Hs; cbv zeta in Hs.
      destruct (describe_instances ec2 _ (world st)) as [[response|e] w];
        cbn [fst snd] in Hs; discriminate.
    + by rewrite (resolver_unknown ec2 key value v st Hstart Hstop).
  - intros (_ & _ & H). by exists "Invalid Operation".
Qed.

(** ** Further properties of the handler *)

Section Body.

Context {W : Type}.
Variable ec2 : ec2_client W.
Variables key value : string.
Variable event : gmap string pyval.
Variable st : state W.

Lemma body_missing :
  event !! "operation" = None ->
  lambda_handler_body ec2 key value event st
  = (Return tt, mkState (world st) (calls st) (stdout st ++ ["No operation detected!"])).
Proof.
  intros Hev. unfold lambda_handler_body, py_contains. by rewrite Hev.
Qed.

Lemma body_unknown (v : pyval) :
  event !! "operation" = Some v ->
  v <> PStr "start" -> v <> PStr "stop" ->
  lambda_handler_body ec2 key value event st
  = (Return tt, mkState (world st) (calls st) (stdout st ++ ["Invalid Operation!"])).
Proof.
  intros Hev Hstart Hstop.
  unfold lambda_handler_body, bind, py_contains, py_getitem.
  rewrite Hev; cbn [ret].
  rewrite (resolver_unknown ec2 key value v st Hstart Hstop).
  apply py_eq_str_false in Hstart, Hstop.
  cbn [py_len]. by rewrite Hstart, Hstop.
Qed.

Lemma body_known (o : operation) :
  event !! "operation" = Some (PStr (op_name o)) ->
  lambda_handler_body ec2 key value event st
  = let filters := tag_filters key value (op_state o) in
    let queried := calls st ++ [DescribeInstances filters] in
    match describe_instances ec2 filters (world st) with
    | (Raise e, w) => (Raise e, mkState w queried (stdout st))
    | (Return response, w) =>
      match response_ids response with
      | [] => (Return tt, mkState w queried (stdout st ++ ["No Servers to " +:+ op_name o]))
      | ids =>
        ((op_method o ec2 (IdList ids) w).1,
         mkState (op_method o ec2 (IdList ids) w).2
           (queried ++ [op_call o (IdList ids)])
           (stdout st ++ ["Servers to " +:+ op_name o +:+ ": " +:+ py_str_list ids]))
      end
    end.
Proof.
  intros Hev.
  unfold lambda_handler_body, bind, py_contains, py_getitem.
  rewrite Hev; cbn [ret].
  rewrite (resolver_known ec2 key value o st); cbv zeta.
  destruct (describe_instances ec2 (tag_filters key value (op_state o)) (world st))
    as [[response|e] w]; cbn [fst snd]; [|reflexivity].
  destruct (response_ids response) as [|i ids]; cbn [py_len List.length Nat.ltb Nat.leb].
  - destruct o; reflexivity.
  - destruct o; cbn;
      unfold ec2_start_instances, ec2_stop_instances, client_call; cbn.
    + by destruct (start_instances ec2 (IdList (i :: ids)) w) as [[[]|e] w'].
    + by destruct (stop_instances ec2 (IdList (i :: ids)) w) as [[[]|e] w'].
Qed.

End Body.

(** X4.  When the listing query raises, the run stops there: no bulk call is
    issued and the provider is left as the failed query left it.  If the
    exception is an instance of [Exception], the only line printed is the
    error report with the exception's text and the handler returns its
    acknowledgement; if it is not, nothing is printed and the handler raises
    it to its caller. *)
Theorem failed_query_ends_run
  {W Ctx : Type} (ec2 : ec2_client W) (key value : string)
  (event : gmap string pyval) (context : Ctx) (st : state W)
  (o : operation) (e : PyException) (w : W) :
  event !! "operation" = Some (PStr (op_name o)) ->
  describe_instances ec2
    [ mkFilter ("tag:" +:+ key) [value]; mkFilter "instance-state-name" [op_state o] ]
    (world st) = (Raise e, w) ->
  lambda_handler ec2 key value event context st
  = (if exc_is_Exception e then Return "Function Executed!" else Raise e,
     mkState w
       (calls st ++
        [ DescribeInstances
            [ mkFilter ("tag:" +:+ key) [value];
              mkFilter "instance-state-name" [op_state o] ] ])
       (stdout st ++
        if exc_is_Exception e
        then ["Error occuried! Error Message: " +:+ exc_str e]
        else [])).
Proof.
  intros Hev Hquery.
  rewrite (run_known ec2 key value event context st o Hev).
  unfold final_state, final_result, tag_filters. by rewrite Hquery.
Qed.

Lemma failed_query_ends_run_witness :
  lambda_handler Sim.failing "env" "dev"
    ({[ "operation" := PStr "start" ]} : gmap string pyval) tt Sim.boot
  = (Return "Function Executed!",
     mkState Sim.fleet
       [ DescribeInstances
           [ mkFilter "tag:env" ["dev"]; mkFilter "instance-state-name" ["stopped"] ] ]
       [ "Error occuried! Error Message: An error occurred (UnauthorizedOperation)" ])
  /\ lambda_handler Sim.interrupted "env" "dev"
       ({[ "operation" := PStr "start" ]} : gmap string pyval) tt Sim.boot
     = (Raise Sim.interrupt,
        mkState Sim.fleet
          [ DescribeInstances
              [ mkFilter "tag:env" ["dev"]; mkFilter "instance-state-name" ["stopped"] ] ]
          []).
Proof.
  split.
  - apply (failed_query_ends_run Sim.failing "env" "dev" {[ "operation" := PStr "start" ]}
             tt Sim.boot Start Sim.denied Sim.fleet); reflexivity.
  - apply (failed_query_ends_run Sim.interrupted "env" "dev"
             {[ "operation" := PStr "start" ]} tt Sim.boot Start Sim.interrupt Sim.fleet);
      reflexivity.
Defined.

(** X5.  When the bulk call raises, the announcement of the servers, a line
    that starts with "Servers to <operation>: ", has already been printed, no
    further call is made and the provider is left as the failed call left it.
    If the exception is an instance of [Exception], the error report follows
    the announcement and the handler returns its acknowledgement; if it is
    not, the announcement is the only line and the handler raises the
    exception to its caller. *)
Theorem failed_action_is_reported
  {W Ctx : Type} (ec2 : ec2_client W) (key value : string)
  (event : gmap string pyval) (context : Ctx) (st : state W)
  (o : operation) (response : DescribeInstancesResponse) (e : PyException) (w w' : W) :
  event !! "operation" = Some (PStr (op_name o)) ->
  describe_instances ec2
    [ mkFilter ("tag:" +:+ key) [value]; mkFilter "instance-state-name" [op_state o] ]
    (world st) = (Return response, w) ->
  response_ids response <> [] ->
  op_method o ec2 (IdList (response_ids response)) w = (Raise e, w') ->
  exists text,
    lambda_handler ec2 key value event context st
    = (if exc_is_Exception e then Return "Function Executed!" else Raise e,
       mkState w'
         (calls st ++
          [ DescribeInstances
              [ mkFilter ("tag:" +:+ key) [value];
                mkFilter "instance-state-name" [op_state o] ];
            op_call o (IdList (response_ids response)) ])
         (stdout st ++
          ("Servers to " +:+ op_name o +:+ ": " +:+ text)
          :: if exc_is_Exception e
             then ["Error occuried! Error Message: " +:+ exc_str e]
             else [])).
Proof.
  intros Hev Hquery Hids Hact.
  exists (py_str_list (response_ids response)).
  rewrite (run_known ec2 key value event context st o Hev).
  unfold final_state, final_result, reported, yielded, tag_filters. rewrite Hquery.
  destruct (response_ids response) as [|i ids]; [done|].
  rewrite Hact. by rewrite <- app_assoc.
Qed.

Lemma failed_action_is_reported_witness :
  (exists text,
     lambda_handler Sim.half "env" "dev"
       ({[ "operation" := PStr "stop" ]} : gmap string pyval) tt Sim.boot
     = (Return "Function Executed!",
        mkState Sim.fleet
          [ DescribeInstances
              [ mkFilter "tag:env" ["dev"]; mkFilter "instance-state-name" ["running"] ];
            StopInstances (IdList ["i-1"; "i-2"]) ]
          [ "Servers to stop: " +:+ text;
            "Error occuried! Error Message: An error occurred (UnauthorizedOperation)" ]))
  /\ (exists text,
        lambda_handler Sim.half_interrupted "env" "dev"
          ({[ "operation" := PStr "stop" ]} : gmap string pyval) tt Sim.boot
        = (Raise Sim.interrupt,
           mkState Sim.fleet
             [ DescribeInstances
                 [ mkFilter "tag:env" ["dev"]; mkFilter "instance-state-name" ["running"] ];
               StopInstances (IdList ["i-1"; "i-2"]) ]
             [ "Servers to stop: " +:+ text ])).
Proof.
  split.
  - apply (failed_action_is_reported Sim.half "env" "dev" {[ "operation" := PStr "stop" ]}
             tt Sim.boot Stop
             (mkResponse [mkReservation [mkInstance "i-1"]; mkReservation [mkInstance "i-2"]])
             Sim.denied Sim.fleet Sim.fleet);
      [reflexivity | reflexivity | discriminate | reflexivity].
  - apply (failed_action_is_reported Sim.half_interrupted "env" "dev"
             {[ "operation" := PStr "stop" ]} tt Sim.boot Stop
             (mkResponse [mkReservation [mkInstance "i-1"]; mkReservation [mkInstance "i-2"]])
             Sim.interrupt Sim.fleet Sim.fleet);
      [reflexivity | reflexivity | discriminate | reflexivity].
Defined.

(** X6.  A bulk start or stop is never issued on an empty list, nor on the
    resolver's "Invalid Operation" string: every bulk call of a run carries a
    list with at least one id. *)
Theorem bulk_call_has_ids
  {W Ctx : Type} (ec2 : ec2_client W) (key value : string)
  (event : gmap string pyval) (context : Ctx) (st : state W) :
  exists new,
    calls (lambda_handler ec2 key value event context st).2 = calls st ++ new
    /\ forall v,
         In (StartInstances v) new \/ In (StopInstances v) new ->
         exists i ids, v = IdList (i :: ids).
Proof.
  destruct (event !! "operation") as [v|] eqn:Hev.
  - destruct (operation_cases v) as [[o ->]|[Hstart Hstop]].
    + rewrite (run_known ec2 key value event context st o Hev).
      unfold final_state; cbn [snd].
      destruct (describe_instances ec2 (tag_filters key value (op_state o)) (world st))
        as [[response|e] w].
      * destruct (response_ids response) as [|i ids].
        { eexists; split; [reflexivity|]. intros v [[H|[]]|[H|[]]]; discriminate. }
        exists [DescribeInstances (tag_filters key value (op_state o));
                op_call o (IdList (i :: ids))].
        split.
        { destruct (op_method o ec2 (IdList (i :: ids)) w) as [[[]|e] w'];
            cbn [calls]; by rewrite <- app_assoc. }
        intros v Hin. exists i, ids.
        destruct o, Hin as [[H|[H|[]]]|[H|[H|[]]]]; cbn in H; congruence.
      * eexists; split; [reflexivity|]. intros v [[H|[]]|[H|[]]]; discriminate.
    + rewrite (run_unknown ec2 key value event context st v Hev Hstart Hstop).
      exists []. split; [by rewrite app_nil_r|]. intros ? [[]|[]].
  - rewrite (run_missing ec2 key value event context st Hev).
    exists []. split; [by rewrite app_nil_r|]. intros ? [[]|[]].
Qed.

(** X7.  For an event that is a dict, the code of the [try] block raises
    nothing of its own: when the block raises, the exception is one a client
    method raised, the listing query from the state the run started in or the
    bulk call on the ids of its response.  On a dict, the membership test,
    the lookups of "operation" (made only after the test) and the
    concatenations (made only where the operation is a [str]) raise no
    [KeyError] and no [TypeError]. *)
Theorem body_raises_only_provider_errors
  {W : Type} (ec2 : ec2_client W) (key value : string)
  (event : gmap string pyval) (st st' : state W) (e : PyException) :
  lambda_handler_body ec2 key value event st = (Raise e, st') ->
  (exists filters, (describe_instances ec2 filters (world st)).1 = Raise e)
  \/ (exists filters response w,
        describe_instances ec2 filters (world st) = (Return response, w)
        /\ ((start_instances ec2 (IdList (response_ids response)) w).1 = Raise e
            \/ (stop_instances ec2 (IdList (response_ids response)) w).1 = Raise e)).
Proof.
  intros Hbody.
  destruct (event !! "operation") as [v|] eqn:Hev.
  - destruct (operation_cases v) as [[o ->]|[Hstart Hstop]].
    + rewrite (body_known ec2 key value event st o Hev) in Hbody; cbv zeta in Hbody.
      destruct (describe_instances ec2 (tag_filters key value (op_state o)) (world st))
        as [[response|e'] w] eqn:Hquery.
      * destruct (response_ids response) as [|i ids] eqn:Hids; [discriminate|].
        injection Hbody as Hr _. right.
        exists (tag_filters key value (op_state o)), response, w.
        split; [exact Hquery|]. rewrite Hids. destruct o; [by left | by right].
      * injection Hbody as -> _. left.
        exists (tag_filters key value (op_state o)). by rewrite Hquery.
    + rewrite (body_unknown ec2 key value event st v Hev Hstart Hstop) in Hbody.
      discriminate.
  - rewrite (body_missing ec2 key value event st Hev) in Hbody. discriminate.
Qed.

Lemma body_raises_only_provider_errors_witness :
  (exists filters, (describe_instances Sim.failing filters Sim.fleet).1 = Raise Sim.denied)
  \/ (exists filters response w,
        describe_instances Sim.failing filters Sim.fleet = (Return response, w)
        /\ ((start_instances Sim.failing (IdList (response_ids response)) w).1
            = Raise Sim.denied
            \/ (stop_instances Sim.failing (IdList (response_ids response)) w).1
               = Raise Sim.denied)).
Proof.
  apply (body_raises_only_provider_errors Sim.failing "env" "dev"
           {[ "operation" := PStr "stop" ]} Sim.boot
           (mkState Sim.fleet
              [ DescribeInstances
                  [ mkFilter "tag:env" ["dev"];
                    mkFilter "instance-state-name" ["running"] ] ] [])
           Sim.denied).
  reflexivity.
Defined.


(** X9.  After a query that returns, a bulk call is issued exactly when some
    reservation of the response lists an instance.  A response whose
    reservations are all empty is treated like a response without
    reservations: the query is the only call of the run. *)
Theorem action_iff_some_instance
  {W Ctx : Type} (ec2 : ec2_client W) (key value : string)
  (event : gmap string pyval) (context : Ctx) (st : state W)
  (o : operation) (response : DescribeInstancesResponse) (w : W) :
  event !! "operation" = Some (PStr (op_name o)) ->
  describe_instances ec2
    [ mkFilter ("tag:" +:+ key) [value]; mkFilter "instance-state-name" [op_state o] ]
    (world st) = (Return response, w) ->
  let query :=
    DescribeInstances
      [ mkFilter ("tag:" +:+ key) [value]; mkFilter "instance-state-name" [op_state o] ] in
  let after := calls (lambda_handler ec2 key value event context st).2 in
  (Forall (fun server => Instances server = []) (Reservations response)
   -> after = calls st ++ [query])
  /\ (Exists (fun server => Instances server <> []) (Reservations response)
      -> after = calls st ++ [query; op_call o (IdList (response_ids response))]).
Proof.
  intros Hev Hquery query after. subst query after.
  rewrite (run_known ec2 key value event context st o Hev).
  unfold final_state, tag_filters; cbn [snd]. rewrite Hquery.
  assert (Hempty : response_ids response = []
                   <-> Forall (fun server => Instances server = []) (Reservations response)).
  { unfold response_ids.
    induction (Reservations response) as [|server l IH]; cbn [flat_map].
    - split; [constructor | reflexivity].
    - split.
      + intros H. apply app_eq_nil in H as [H1 H2].
        constructor; [by destruct (Instances server) | by apply IH].
      + intros H. inversion H as [|? ? H1 H2]; subst.
        rewrite H1. cbn [map app]. by apply IH. }
  split.
  - intros Hall. apply Hempty in Hall. by rewrite Hall.
  - intros Hsome.
    destruct (response_ids response) as [|i ids] eqn:Hids.
    + exfalso. apply Exists_exists in Hsome as (server & Hin & Hne).
      destruct Hempty as [Hall _]. specialize (Hall eq_refl).
      rewrite Forall_forall in Hall. by apply Hne, Hall.
    + destruct (op_method o ec2 (IdList (i :: ids)) w) as [[[]|e] w'];
        cbn [calls]; by rewrite <- app_assoc.
Qed.

Lemma action_iff_some_instance_witness :
  calls (lambda_handler (Sim.canned Sim.hollow) "env" "dev"
           ({[ "operation" := PStr "stop" ]} : gmap string pyval) tt Sim.boot).2
  = [ DescribeInstances
        [ mkFilter "tag:env" ["dev"]; mkFilter "instance-state-name" ["running"] ] ].
Proof.
  destruct (action_iff_some_instance (Sim.canned Sim.hollow) "env" "dev"
              {[ "operation" := PStr "stop" ]} tt Sim.boot Stop Sim.hollow Sim.fleet)
    as [Hnone _]; [reflexivity | reflexivity |].
  apply Hnone. repeat constructor.
Defined.

(** ** Loading the module *)

(** What a successful load has read. *)
Lemma load_module_globals
  {W : Type} (environ : gmap string string)
  (boto3_client : string -> result (ec2_client W)) (g : module_globals W) :
  load_module environ boto3_client = Return g ->
  environ !! "EC2TAG_KEY" = Some (EC2TAG_KEY g)
  /\ environ !! "EC2TAG_VALUE" = Some (EC2TAG_VALUE g)
  /\ boto3_client "ec2" = Return (ec2 g).
Proof.
  unfold load_module, os_environ_getitem.
  destruct (environ !! "EC2TAG_KEY") as [k|]; [|discriminate].
  destruct (environ !! "EC2TAG_VALUE") as [v|]; [|discriminate].
  destruct (boto3_client "ec2") as [c|e]; [|discriminate].
  by intros [= <-].
Qed.

(** X10.  Loading the module succeeds exactly when the environment holds both
    EC2TAG_KEY and EC2TAG_VALUE and the client can be created; the globals
    are then the two values of the environment, as they are (an empty value
    is accepted), and that client. *)
Theorem load_module_succeeds_iff
  {W : Type} (environ : gmap string string)
  (boto3_client : string -> result (ec2_client W)) (g : module_globals W) :
  load_module environ boto3_client = Return g
  <-> environ !! "EC2TAG_KEY" = Some (EC2TAG_KEY g)
      /\ environ !! "EC2TAG_VALUE" = Some (EC2TAG_VALUE g)
      /\ boto3_client "ec2" = Return (ec2 g).
Proof.
  split; [apply load_module_globals|].
  unfold load_module, os_environ_getitem.
  intros (-> & -> & ->). by destruct g.
Qed.

(** X11.  A missing variable stops the load with a [KeyError] naming it, and
    nothing catches it.  EC2TAG_KEY is looked up first: when it is missing the
    error names it whatever else is missing or failing; EC2TAG_VALUE is named
    only when EC2TAG_KEY is set. *)
Theorem load_module_names_missing_variable
  {W : Type} (environ : gmap string string)
  (boto3_client : string -> result (ec2_client W)) :
  environ !! "EC2TAG_KEY" = None \/ environ !! "EC2TAG_VALUE" = None ->
  load_module environ boto3_client
  = Raise (mkException "KeyError"
             (match environ !! "EC2TAG_KEY" with
              | None => "'EC2TAG_KEY'"
              | Some _ => "'EC2TAG_VALUE'"
              end)).
Proof.
  unfold load_module, os_environ_getitem.
  intros [Hk|Hv].
  - by rewrite Hk.
  - rewrite Hv. by destruct (environ !! "EC2TAG_KEY").
Qed.

Lemma load_module_names_missing_variable_witness :
  load_module (∅ : gmap string string) Sim.boto3_client
  = Raise (mkException "KeyError" "'EC2TAG_KEY'")
  /\ load_module ({[ "EC2TAG_KEY" := "env" ]} : gmap string string) Sim.boto3_client
     = Raise (mkException "KeyError" "'EC2TAG_VALUE'").
Proof.
  split.
  - assert (Hk : (∅ : gmap string string) !! "EC2TAG_KEY" = None) by reflexivity.
    exact (load_module_names_missing_variable ∅ Sim.boto3_client (or_introl Hk)).
  - assert (Hv : ({[ "EC2TAG_KEY" := "env" ]} : gmap string string) !! "EC2TAG_VALUE" = None)
      by reflexivity.
    exact (load_module_names_missing_variable {[ "EC2TAG_KEY" := "env" ]}
             Sim.boto3_client (or_intror Hv)).
Defined.

(** X12.  From environment to query: once the module has loaded, a run for
    "start" or "stop" opens with a listing query whose tag filter is built
    from the environment's EC2TAG_KEY and EC2TAG_VALUE of load time. *)
Theorem loaded_handler_queries_environment_tag
  {W Ctx : Type} (environ : gmap string string)
  (boto3_client : string -> result (ec2_client W)) (g : module_globals W)
  (k v : string) (event : gmap string pyval) (context : Ctx) (st : state W)
  (o : operation) :
  load_module environ boto3_client = Return g ->
  environ !! "EC2TAG_KEY" = Some k ->
  environ !! "EC2TAG_VALUE" = Some v ->
  event !! "operation" = Some (PStr (op_name o)) ->
  exists rest,
    calls (lambda_handler (ec2 g) (EC2TAG_KEY g) (EC2TAG_VALUE g) event context st).2
    = calls st ++
      DescribeInstances
        [ mkFilter ("tag:" +:+ k) [v]; mkFilter "instance-state-name" [op_state o] ]
      :: rest.
Proof.
  intros Hload Hk Hv Hev.
  apply load_module_globals in Hload as (Hk' & Hv' & _).
  assert (EC2TAG_KEY g = k) as -> by congruence.
  assert (EC2TAG_VALUE g = v) as -> by congruence.
  rewrite (run_known (ec2 g) k v event context st o Hev).
  unfold final_state, tag_filters; cbn [snd].
  destruct (describe_instances (ec2 g) _ (world st)) as [[response|e] w].
  - destruct (response_ids response) as [|i ids]; [by exists []|].
    destruct (op_method o (ec2 g) (IdList (i :: ids)) w) as [[[]|e] w'];
      cbn [calls]; rewrite <- app_assoc; by eexists.
  - by exists [].
Qed.

Lemma loaded_handler_queries_environment_tag_witness :
  exists rest,
    calls (lambda_handler Sim.client "Schedule" EmptyString
             ({[ "operation" := PStr "start" ]} : gmap string pyval) tt Sim.boot).2
    = DescribeInstances
        [ mkFilter "tag:Schedule" [EmptyString]; mkFilter "instance-state-name" ["stopped"] ]
      :: rest.
Proof.
  apply (loaded_handler_queries_environment_tag
           ({[ "EC2TAG_KEY" := "Schedule"; "EC2TAG_VALUE" := EmptyString ]} : gmap string string)
           Sim.boto3_client (mkGlobals "Schedule" EmptyString Sim.client) "Schedule" EmptyString
           {[ "operation" := PStr "start" ]} tt Sim.boot Start); reflexivity.
Defined.
